(** * Namespace reconciler of consul-k8s

    A shallow embedding of [control-plane/tenancy/namespace/namespace.go]
    and the properties of [EnsureDeleted], [EnsureExists] and
    [isMarkedForDeletion].

    Go strings are byte strings: they are modelled as [string] (a list of
    8-bit [ascii]).  Integers ([rune], [byte]) are [Z].  A Go [error] value
    or pointer that may be [nil] is an [option]. *)

From Stdlib Require Import ZArith Ascii String List Lia Bool.
From stdpp Require Import base option gmap strings.

Local Open Scope string_scope.
Local Open Scope Z_scope.

(** ** Strings *)

Module Str.

(** [s[n:]] for [n <= len(s)]. *)
Fixpoint drop (n : nat) (s : string) : string :=
  match n, s with
  | O, _ => s
  | S n', String _ s' => drop n' s'
  | S _, EmptyString => EmptyString
  end.

Fixpoint hasPrefix (p s : string) : bool :=
  match p, s with
  | EmptyString, _ => true
  | String a p', String b s' => if Ascii.eqb a b then hasPrefix p' s' else false
  | String _ _, EmptyString => false
  end.

(** [strings.Contains(s, sub)]. *)
Fixpoint containsb (sub s : string) : bool :=
  hasPrefix sub s ||
  match s with
  | EmptyString => false
  | String _ s' => containsb sub s'
  end.

(** [sub] occurs in [s]. *)
Definition Contains (sub s : string) : Prop :=
  exists pre post, s = String.append pre (String.append sub post).

Definition byte (c : ascii) : Z := Z.of_N (N_of_ascii c).
Definition char (b : Z) : ascii := ascii_of_N (Z.to_N b).

Definition nth_byte (i : nat) (s : string) : option Z :=
  option_map byte (String.get i s).

End Str.

(** ** The parts of Go's standard library behind the verb [%q] *)

Module utf8.

Definition RuneError : Z := 0xFFFD.
Definition RuneSelf : Z := 0x80.
Definition MaxRune : Z := 0x10FFFF.

Definition between (lo hi b : Z) : bool := (lo <=? b) && (b <=? hi).

(** The entry of the [first] table for a leading byte [>= 0x80]: the
    length of the sequence and the range accepted for its second byte;
    [None] for a byte that starts no sequence. *)
Definition first (b0 : Z) : option (nat * Z * Z) :=
  if between 0xC2 0xDF b0 then Some (2%nat, 0x80, 0xBF)
  else if b0 =? 0xE0 then Some (3%nat, 0xA0, 0xBF)
  else if between 0xE1 0xEC b0 then Some (3%nat, 0x80, 0xBF)
  else if b0 =? 0xED then Some (3%nat, 0x80, 0x9F)
  else if between 0xEE 0xEF b0 then Some (3%nat, 0x80, 0xBF)
  else if b0 =? 0xF0 then Some (4%nat, 0x90, 0xBF)
  else if between 0xF1 0xF3 b0 then Some (4%nat, 0x80, 0xBF)
  else if b0 =? 0xF4 then Some (4%nat, 0x80, 0x8F)
  else None.

Definition cont (lo hi : Z) (b : option Z) : option Z :=
  match b with
  | Some b => if between lo hi b then Some b else None
  | None => None
  end.

(** [utf8.DecodeRuneInString]: the first rune of [s] and its width. *)
Definition DecodeRuneInString (s : string) : Z * nat :=
  match s with
  | EmptyString => (RuneError, 0%nat)
  | String c0 _ =>
    let s0 := Str.byte c0 in
    if s0 <? RuneSelf then (s0, 1%nat)
    else
      match first s0 with
      | None => (RuneError, 1%nat)
      | Some (sz, lo, hi) =>
        if (String.length s <? sz)%nat then (RuneError, 1%nat)
        else
          match cont lo hi (Str.nth_byte 1 s) with
          | None => (RuneError, 1%nat)
          | Some s1 =>
            if (sz <=? 2)%nat
            then (Z.lor (Z.shiftl (Z.land s0 0x1F) 6) (Z.land s1 0x3F), 2%nat)
            else
              match cont 0x80 0xBF (Str.nth_byte 2 s) with
              | None => (RuneError, 1%nat)
              | Some s2 =>
                if (sz <=? 3)%nat
                then (Z.lor (Z.lor (Z.shiftl (Z.land s0 0x0F) 12)
                                   (Z.shiftl (Z.land s1 0x3F) 6))
                            (Z.land s2 0x3F), 3%nat)
                else
                  match cont 0x80 0xBF (Str.nth_byte 3 s) with
                  | None => (RuneError, 1%nat)
                  | Some s3 =>
                    (Z.lor (Z.lor (Z.lor (Z.shiftl (Z.land s0 0x07) 18)
                                         (Z.shiftl (Z.land s1 0x3F) 12))
                                  (Z.shiftl (Z.land s2 0x3F) 6))
                           (Z.land s3 0x3F), 4%nat)
                  end
              end
          end
      end
  end.

(** [utf8.ValidRune]. *)
Definition ValidRune (r : Z) : bool :=
  (between 0 0xD7FF r) || (between 0xE000 MaxRune r).

Definition tail6 (r : Z) (k : Z) : string :=
  String (Str.char (Z.lor 0x80 (Z.land (Z.shiftr r k) 0x3F))) EmptyString.

(** [utf8.AppendRune] to an empty buffer: the UTF-8 encoding of [r]. *)
Definition AppendRune (r : Z) : string :=
  if between 0 0x7F r then String (Str.char r) EmptyString
  else if between 0 0x7FF r then
    String (Str.char (Z.lor 0xC0 (Z.shiftr r 6))) (tail6 r 0)
  else
    let r := if ValidRune r then r else RuneError in
    if r <=? 0xFFFF then
      String (Str.char (Z.lor 0xE0 (Z.shiftr r 12))) (tail6 r 6 ++ tail6 r 0)
    else
      String (Str.char (Z.lor 0xF0 (Z.shiftr r 18)))
             (tail6 r 12 ++ tail6 r 6 ++ tail6 r 0).

End utf8.

Module strconv.
Section Quote.

(** The printable-rune tables of [strconv] ([isPrint16], [isNotPrint16],
    [isPrint32], [isNotPrint32]) decide runes above U+00FF; they are data
    of the Go distribution and are taken as a parameter. *)
Variable isPrintTable : Z -> bool.

(** [strconv.IsPrint]. *)
Definition IsPrint (r : Z) : bool :=
  if r <=? 0xFF then
    if utf8.between 0x20 0x7E r then true
    else if utf8.between 0xA1 0xFF r then negb (r =? 0xAD)
    else false
  else isPrintTable r.

Definition lowerhex (n : Z) : string :=
  match String.get (Z.to_nat n) "0123456789abcdef" with
  | Some c => String c EmptyString
  | None => EmptyString
  end.

Definition backslash : ascii := Str.char 0x5C.
Definition dquote : ascii := Str.char 0x22.
Definition esc (s : string) : string := String backslash s.

(** The digits [lowerhex[r>>s & 0xF]] for [s = 4*(n-1), ..., 4, 0]. *)
Fixpoint hexdigits (n : nat) (r : Z) : string :=
  match n with
  | O => EmptyString
  | S n' => lowerhex (Z.land (Z.shiftr r (4 * Z.of_nat n')) 0xF) ++ hexdigits n' r
  end.

(** [appendEscapedRune] for the double quote as delimiter, with
    [ASCIIonly] and [graphicOnly] off, as the text added to the buffer. *)
Definition appendEscapedRune (r : Z) : string :=
  if (r =? 0x22) || (r =? 0x5C) then esc (String (Str.char r) EmptyString)
  else if IsPrint r then utf8.AppendRune r
  else if r =? 7 then esc "a"
  else if r =? 8 then esc "b"
  else if r =? 12 then esc "f"
  else if r =? 10 then esc "n"
  else if r =? 13 then esc "r"
  else if r =? 9 then esc "t"
  else if r =? 11 then esc "v"
  else if (r <? 0x20) || (r =? 0x7F) then esc ("x" ++ hexdigits 2 (Z.land r 0xFF))
  else if negb (utf8.ValidRune r) then esc ("u" ++ hexdigits 4 0xFFFD)
  else if r <? 0x10000 then esc ("u" ++ hexdigits 4 r)
  else esc ("U" ++ hexdigits 8 r).

(** The loop of [appendQuotedWith]: [s] is consumed one rune at a time,
    [s = s[width:]].  Every turn consumes at least one byte, so
    [String.length s] turns are enough. *)
Fixpoint quoteLoop (fuel : nat) (s : string) : string :=
  match fuel with
  | O => EmptyString
  | S fuel' =>
    match s with
    | EmptyString => EmptyString
    | String c _ =>
      let r0 := Str.byte c in
      let '(r, width) :=
        if utf8.RuneSelf <=? r0 then utf8.DecodeRuneInString s else (r0, 1%nat) in
      if (width =? 1)%nat && (r =? utf8.RuneError) then
        esc ("x" ++ hexdigits 2 r0) ++ quoteLoop fuel' (Str.drop width s)
      else
        appendEscapedRune r ++ quoteLoop fuel' (Str.drop width s)
    end
  end.

(** [strconv.Quote], which is what the verb [%q] prints for a string. *)
Definition Quote (s : string) : string :=
  String dquote (quoteLoop (String.length s) s ++ String dquote EmptyString).

(** A byte that [Quote] copies unchanged: printable ASCII other than the
    double quote and the backslash. *)
Definition plainByte (c : ascii) : bool :=
  let b := Str.byte c in
  utf8.between 0x20 0x7E b && negb (b =? 0x22) && negb (b =? 0x5C).

Fixpoint plainName (s : string) : bool :=
  match s with
  | EmptyString => true
  | String c s' => plainByte c && plainName s'
  end.

End Quote.
End strconv.

(** ** Errors *)

(** [google.golang.org/grpc/codes]. *)
Module codes.

Inductive Code : Set :=
| OK | Canceled | Unknown | InvalidArgument | DeadlineExceeded | NotFound
| AlreadyExists | PermissionDenied | ResourceExhausted | FailedPrecondition
| Aborted | OutOfRange | Unimplemented | Internal | Unavailable | DataLoss
| Unauthenticated.

#[global] Instance Code_eq_dec : EqDecision Code.
Proof. solve_decision. Defined.

End codes.

(** A non-nil Go [error].  The reconciler builds its own errors with
    [fmt.Errorf], without or with an operand of the verb [%w]; every other
    error (from the remote client or from the payload encoder) is seen
    through the two things that are observed of it: its gRPC status code
    and its [Error()] text. *)
Inductive error : Type :=
| Foreign (code : codes.Code) (text : string)
| Errorf (text : string)
| ErrorfW (text : string) (wrapped : error).

Module errors.

(** [err.Error()]. *)
Definition Error (e : error) : string :=
  match e with
  | Foreign _ text => text
  | Errorf text => text
  | ErrorfW text _ => text
  end.

(** [errors.Unwrap]. *)
Definition Unwrap (e : error) : option error :=
  match e with
  | Foreign _ _ => None
  | Errorf _ => None
  | ErrorfW _ wrapped => Some wrapped
  end.

End errors.

(** [err] is an error made with the verb [%w] from [cause]: unwrapping it
    gives back [cause] itself, and its text is [prefix], the [context], a
    colon and the text of [cause]. *)
Definition wraps (prefix context : string) (cause : error) (err : option error) : Prop :=
  exists x, err = Some x /\
    errors.Unwrap x = Some cause /\
    errors.Error x =
      String.append prefix
        (String.append context (String.append ": " (errors.Error cause))).

Module status.

(** The code of a non-nil error: [status.Code] looks through the chain of
    wrapped errors for one that carries a status. *)
Fixpoint code_of (e : error) : codes.Code :=
  match e with
  | Foreign c _ => c
  | Errorf _ => codes.Unknown
  | ErrorfW _ e' => code_of e'
  end.

(** [status.Code]: [OK] for nil, the status code the error carries or
    wraps, [Unknown] for an error without one. *)
Definition Code (err : option error) : codes.Code :=
  match err with
  | None => codes.OK
  | Some e => code_of e
  end.

End status.

Module fmt.
Section Errorf.

Variable isPrintTable : Z -> bool.

(** [fmt.Errorf(prefix + "%w", err)]. *)
Definition Errorf_w (prefix : string) (err : error) : error :=
  ErrorfW (prefix ++ errors.Error err) err.

(** [fmt.Errorf(before + "%q" + after, s)]. *)
Definition Errorf_q (before : string) (s : string) (after : string) : error :=
  Errorf (before ++ strconv.Quote isPrintTable s ++ after).

End Errorf.
End fmt.

(** ** Messages of the resource service *)

(** [github.com/hashicorp/consul/proto-public/pbresource].  A message
    field is a pointer and may be nil; a map field may be nil; a field that
    a Go literal leaves out has its zero value.  The status map of a
    resource, which the reconciler neither reads nor writes, is left out. *)
Module Type_.
Record t : Type := { Group : string; GroupVersion : string; Kind : string }.
End Type_.

Module Tenancy.
Record t : Type := { Partition : string; Namespace : string; PeerName : string }.
End Tenancy.

Module ID.
Record t : Type :=
  { Uid : string; Name : string; Type_ : option Type_.t;
    Tenancy : option Tenancy.t }.
End ID.

(** [anypb.Any]. *)
Module Any.
Record t : Type := { TypeUrl : string; Value : string }.
End Any.

Module Resource.
Record t : Type :=
  { Id : option ID.t;
    Owner : option ID.t;
    Version : string;
    Generation : string;
    Metadata : option (gmap string string);
    Data : option Any.t }.
End Resource.

Module ReadRequest.
Record t : Type := { Id : option ID.t }.
End ReadRequest.

Module ReadResponse.
Record t : Type := { Resource : option Resource.t }.
End ReadResponse.

Module WriteRequest.
Record t : Type := { Resource : option Resource.t }.
End WriteRequest.

Module WriteResponse.
Record t : Type := { Resource : option Resource.t }.
End WriteResponse.

Module DeleteRequest.
Record t : Type := { Id : option ID.t; Version : string }.
End DeleteRequest.

Module DeleteResponse.
Record t : Type := mk { }.
End DeleteResponse.

(** [github.com/hashicorp/consul/proto-public/pbtenancy/v2beta1]. *)
Module pbtenancy.

Record Namespace : Type := { Description : string }.

Definition NamespaceType : Type_.t :=
  {| Type_.Group := "tenancy"; Type_.GroupVersion := "v2beta1";
     Type_.Kind := "Namespace" |}.

End pbtenancy.

Module common.

(** Modelled from the spec: the two reserved names are constants of
    [control-plane/api/common], which is not among the sources; the
    wildcard is the star and the default name is the word default. *)
Definition WildcardNamespace : string := "*".
Definition DefaultNamespaceName : string := "default".

End common.

(** ** Calls, outcomes and the world *)

(** What a Go call does: it returns, or it panics (here only by
    dereferencing a nil pointer). *)
Inductive Outcome (A : Type) : Type :=
| Returned (a : A)
| Panicked.
Arguments Returned {A} a.
Arguments Panicked {A}.

Section Client.

(** [context.Context] and the state of the remote resource service. *)
Context {Ctx St : Type}.

(** The three methods of [pbresource.ResourceServiceClient] that the
    reconciler uses.  Each returns a response pointer and an error.  A
    read observes the remote state; a write or a delete may change it. *)
Record ResourceServiceClient : Type :=
  { Read : Ctx -> ReadRequest.t -> St -> option ReadResponse.t * option error;
    Write : Ctx -> WriteRequest.t -> St ->
            (option WriteResponse.t * option error) * St;
    Delete : Ctx -> DeleteRequest.t -> St ->
             (option DeleteResponse.t * option error) * St }.

(** One remote call: what was sent and what came back. *)
Inductive Call : Type :=
| ReadCall (ctx : Ctx) (req : ReadRequest.t)
           (res : option ReadResponse.t * option error)
| WriteCall (ctx : Ctx) (req : WriteRequest.t)
            (res : option WriteResponse.t * option error)
| DeleteCall (ctx : Ctx) (req : DeleteRequest.t)
             (res : option DeleteResponse.t * option error).

Definition isWrite (c : Call) : bool :=
  match c with WriteCall _ _ _ => true | _ => false end.
Definition isDelete (c : Call) : bool :=
  match c with DeleteCall _ _ _ => true | _ => false end.

(** The remote state and the calls issued so far, oldest first. *)
Record World : Type := { remote : St; calls : list Call }.

Definition M (A : Type) : Type := World -> Outcome A * World.

Definition ret {A} (a : A) : M A := fun w => (Returned a, w).

Definition panic {A} : M A := fun w => (Panicked, w).

Definition bind {A B} (m : M A) (k : A -> M B) : M B :=
  fun w =>
    match m w with
    | (Returned a, w') => k a w'
    | (Panicked, w') => (Panicked, w')
    end.

Definition lift {A} (o : Outcome A) : M A := fun w => (o, w).

(** [*p]. *)
Definition deref {A} (p : option A) : Outcome A :=
  match p with
  | Some a => Returned a
  | None => Panicked
  end.

Definition call_Read (client : ResourceServiceClient) (ctx : Ctx)
    (req : ReadRequest.t) : M (option ReadResponse.t * option error) :=
  fun w =>
    let res := Read client ctx req (remote w) in
    (Returned res,
     {| remote := remote w; calls := (calls w ++ [ReadCall ctx req res])%list |}).

Definition call_Write (client : ResourceServiceClient) (ctx : Ctx)
    (req : WriteRequest.t) : M (option WriteResponse.t * option error) :=
  fun w =>
    let '(res, st) := Write client ctx req (remote w) in
    (Returned res,
     {| remote := st; calls := (calls w ++ [WriteCall ctx req res])%list |}).

Definition call_Delete (client : ResourceServiceClient) (ctx : Ctx)
    (req : DeleteRequest.t) : M (option DeleteResponse.t * option error) :=
  fun w =>
    let '(res, st) := Delete client ctx req (remote w) in
    (Returned res,
     {| remote := st; calls := (calls w ++ [DeleteCall ctx req res])%list |}).

End Client.

Arguments ResourceServiceClient : clear implicits.
Arguments Call : clear implicits.
Arguments World : clear implicits.
Arguments M : clear implicits.

Notation "'let*' x ':=' m 'in' k" := (bind m (fun x => k))
  (at level 10, x pattern, m at level 100, k at level 200).

(** ** The reconciler: [package namespace] *)

(** The key in a resource's metadata that stores the timestamp when a
    resource was marked for deletion. *)
Definition DeletionTimestampKey : string := "deletionTimestamp".

(** [isMarkedForDeletion]: [res] is a pointer, and reading [res.Metadata]
    through a nil pointer panics. *)
Definition isMarkedForDeletion (res : option Resource.t) : Outcome bool :=
  match res with
  | None => Panicked
  | Some res =>
    match Resource.Metadata res with
    | None => Returned false
    | Some metadata =>
      match metadata !! DeletionTimestampKey with
      | Some _ => Returned true
      | None => Returned false
      end
    end
  end.

(** The identity both operations read by. *)
Definition namespaceID (ap ns : string) : ID.t :=
  {| ID.Uid := "";
     ID.Name := ns;
     ID.Type_ := Some pbtenancy.NamespaceType;
     ID.Tenancy := Some {| Tenancy.Partition := ap; Tenancy.Namespace := "";
                           Tenancy.PeerName := "" |} |}.

(** The request both operations read with. *)
Definition readRequest (ap ns : string) : ReadRequest.t :=
  {| ReadRequest.Id := Some (namespaceID ap ns) |}.

(** The payload of a namespace created by [EnsureExists]. *)
Definition payload : pbtenancy.Namespace :=
  {| pbtenancy.Description := "Auto-generated by consul-k8s" |}.

Definition reserved (ns : string) : bool :=
  bool_decide (ns = common.WildcardNamespace)
  || bool_decide (ns = common.DefaultNamespaceName).

Section Namespace.

Context {Ctx St : Type}.

(** The tables behind [%q] and the encoder [anypb.New], which returns a
    pointer to the envelope and an error. *)
Variable isPrintTable : Z -> bool.
Variable anypb_New : pbtenancy.Namespace -> option Any.t * option error.

(** [EnsureDeleted] ensures a Consul namespace with name [ns] in partition
    [ap] is deleted or is in the process of being deleted.  The result is
    the returned [error], [None] for nil. *)
Definition EnsureDeleted (ctx : Ctx) (client : ResourceServiceClient Ctx St)
    (ap ns : string) : M Ctx St (option error) :=
  if reserved ns then ret None
  else
    let* (rsp, err) :=
      call_Read client ctx (readRequest ap ns) in
    if bool_decide (status.Code err = codes.NotFound) then ret None
    else
      match err with
      | Some e => ret (Some (fmt.Errorf_w "namespace read failed: " e))
      | None =>
        let* rsp := lift (deref rsp) in
        let* marked := lift (isMarkedForDeletion (ReadResponse.Resource rsp)) in
        if marked then ret None
        else
          let* res := lift (deref (ReadResponse.Resource rsp)) in
          let* (_, err) :=
            call_Delete client ctx
              {| DeleteRequest.Id := Resource.Id res;
                 DeleteRequest.Version := "" |} in
          match err with
          | Some e => ret (Some (fmt.Errorf_w "namespace delete failed: " e))
          | None => ret None
          end
      end.

(** The resource [EnsureExists] writes. *)
Definition newNamespace (ap ns : string) (nsData : option Any.t) : Resource.t :=
  {| Resource.Id := Some (namespaceID ap ns);
     Resource.Owner := None;
     Resource.Version := "";
     Resource.Generation := "";
     Resource.Metadata := Some {[ "external-source" := "kubernetes" ]};
     Resource.Data := nsData |}.

(** [EnsureExists] ensures a Consul namespace with name [ns] exists and is
    not marked for deletion.  The result is the pair of the boolean (the
    namespace was created by this call) and the [error].  The first two
    cases of the switch both need [err == nil] and are the [None] branch
    here; the third is the test of the code in the [Some] branch, and what
    follows the switch is its [else]. *)
Definition EnsureExists (ctx : Ctx) (client : ResourceServiceClient Ctx St)
    (ap ns : string) : M Ctx St (bool * option error) :=
  if reserved ns then ret (false, None)
  else
    let* (rsp, err) :=
      call_Read client ctx (readRequest ap ns) in
    match err with
    | None =>
      let* rsp := lift (deref rsp) in
      let* marked := lift (isMarkedForDeletion (ReadResponse.Resource rsp)) in
      if marked
      then ret (false, Some (fmt.Errorf_q isPrintTable
                               "consul namespace " ns " deletion in progress"))
      else ret (false, None)
    | Some e =>
      if negb (bool_decide (status.Code err = codes.NotFound))
      then ret (false, Some (fmt.Errorf_w "consul namespace read failed: " e))
      else
        let '(nsData, err) := anypb_New payload in
        match err with
        | Some e => ret (false, Some e)
        | None =>
          let* (_, err) :=
            call_Write client ctx
              {| WriteRequest.Resource := Some (newNamespace ap ns nsData) |} in
          match err with
          | Some e =>
            ret (false, Some (fmt.Errorf_w "consul namespace creation failed: " e))
          | None => ret (true, None)
          end
        end
    end.

End Namespace.

(** ** A sample remote service for concrete runs *)

Module Sample.

(** An in-memory resource service: resources by partition and name.
    [failing] makes every write and delete fail with that error. *)
Record Store : Type :=
  { resources : gmap (string * string) Resource.t;
    failing : option error }.

Definition key (id : option ID.t) : string * string :=
  match id with
  | Some id =>
    (match ID.Tenancy id with Some t => Tenancy.Partition t | None => "" end,
     ID.Name id)
  | None => ("", "")
  end.

Definition notFound : error := Foreign codes.NotFound "resource not found".

Definition client : ResourceServiceClient unit Store :=
  {| Read := fun _ req st =>
       match resources st !! key (ReadRequest.Id req) with
       | Some res => (Some {| ReadResponse.Resource := Some res |}, None)
       | None => (None, Some notFound)
       end;
     Write := fun _ req st =>
       match failing st, WriteRequest.Resource req with
       | Some e, _ => ((None, Some e), st)
       | None, Some res =>
         ((Some {| WriteResponse.Resource := Some res |}, None),
          {| resources := <[key (Resource.Id res) := res]> (resources st);
             failing := None |})
       | None, None => ((None, Some (Foreign codes.InvalidArgument "no resource")), st)
       end;
     Delete := fun _ req st =>
       match failing st with
       | Some e => ((None, Some e), st)
       | None =>
         ((Some DeleteResponse.mk, None),
          {| resources := delete (key (DeleteRequest.Id req)) (resources st);
             failing := None |})
       end |}.

(** A service whose reads fail with [e]. *)
Definition broken (e : error) : ResourceServiceClient unit Store :=
  {| Read := fun _ _ _ => (None, Some e);
     Write := Write client;
     Delete := Delete client |}.

Definition isPrintTable : Z -> bool := fun _ => false.

(** An encoder that wraps the description, and one that fails. *)
Definition encode (m : pbtenancy.Namespace) : option Any.t * option error :=
  (Some {| Any.TypeUrl := "type.googleapis.com/hashicorp.consul.tenancy.v2beta1.Namespace";
           Any.Value := pbtenancy.Description m |}, None).

Definition encodeError : error := Foreign codes.Unknown "proto: cannot marshal".

Definition noEncode (m : pbtenancy.Namespace) : option Any.t * option error :=
  (None, Some encodeError).

Definition stored (ap ns : string) (metadata : option (gmap string string)) : Resource.t :=
  {| Resource.Id := Some (namespaceID ap ns);
     Resource.Owner := None;
     Resource.Version := "1";
     Resource.Generation := "1";
     Resource.Metadata := metadata;
     Resource.Data := None |}.

Definition empty : World unit Store :=
  {| remote := {| resources := ∅; failing := None |}; calls := [] |}.

Definition holding (res : Resource.t) (failing : option error) : World unit Store :=
  {| remote := {| resources := {[ key (Resource.Id res) := res ]};
                  failing := failing |};
     calls := [] |}.

Definition live : Resource.t :=
  stored "ap1" "ns1" (Some {[ "external-source" := "kubernetes" ]}).

Definition marked : Resource.t :=
  stored "ap1" "ns1" (Some {[ DeletionTimestampKey := "" ]}).

Definition unavailable : error := Foreign codes.Unavailable "connection refused".

(** A record marked for deletion that is stored under the name [a\b]. *)
Definition escaped : Resource.t :=
  stored "ap1" "a\b" (Some {[ DeletionTimestampKey := "2024-01-01T00:00:00Z" ]}).

(** The world a creating call leaves behind. *)
Definition created : World unit Store :=
  snd (EnsureExists isPrintTable encode tt client "ap1" "ns1" empty).


(** The record [live] with one more metadata entry. *)
Definition owned : Resource.t :=
  stored "ap1" "ns1"
    (Some (<["owner" := "team-a"]> {[ "external-source" := "kubernetes" ]})).

End Sample.

(** ** Runs of the two operations, path by path *)

(** The calls a run added to the history it started from. *)
Definition newCalls {Ctx St : Type} (w w' : World Ctx St) : list (Call Ctx) :=
  List.skipn (List.length (calls w)) (calls w').

(** A service that reads its writes: after a write that returned no error,
    a read of the written resource's id returns a resource with the
    metadata that was written. *)
Definition ReadsItsWrites {Ctx St : Type} (client : ResourceServiceClient Ctx St) : Prop :=
  forall ctx res rsp st st',
    Write client ctx {| WriteRequest.Resource := Some res |} st = ((rsp, None), st') ->
    exists res',
      Read client ctx {| ReadRequest.Id := Resource.Id res |} st'
      = (Some {| ReadResponse.Resource := Some res' |}, None) /\
      Resource.Metadata res' = Resource.Metadata res.

Section Runs.

Context {Ctx St : Type}.
Variable isPrintTable : Z -> bool.
Variable anypb_New : pbtenancy.Namespace -> option Any.t * option error.
Variable ctx : Ctx.
Variable client : ResourceServiceClient Ctx St.

(** The world after the read alone. *)
Definition afterRead (ap ns : string) (w : World Ctx St)
    (res : option ReadResponse.t * option error) : World Ctx St :=
  {| remote := remote w;
     calls := (calls w ++ [ReadCall ctx (readRequest ap ns) res])%list |}.

(** A successful read whose response pointer, or the resource pointer in
    it, is nil. *)
Definition nilRecord (rsp : option ReadResponse.t) : Prop :=
  rsp = None \/ exists r, rsp = Some r /\ ReadResponse.Resource r = None.

(** The paths through [EnsureDeleted], in the order of its switch. *)
Inductive DeletedRun (ap ns : string) (w : World Ctx St) :
    Outcome (option error) * World Ctx St -> Prop :=
| DeletedReserved :
    reserved ns = true ->
    DeletedRun ap ns w (Returned None, w)
| DeletedAbsent rsp err :
    reserved ns = false ->
    Read client ctx (readRequest ap ns) (remote w) = (rsp, err) ->
    status.Code err = codes.NotFound ->
    DeletedRun ap ns w (Returned None, afterRead ap ns w (rsp, err))
| DeletedReadFailed rsp e :
    reserved ns = false ->
    Read client ctx (readRequest ap ns) (remote w) = (rsp, Some e) ->
    status.Code (Some e) <> codes.NotFound ->
    DeletedRun ap ns w
      (Returned (Some (fmt.Errorf_w "namespace read failed: " e)),
       afterRead ap ns w (rsp, Some e))
| DeletedNil rsp :
    reserved ns = false ->
    Read client ctx (readRequest ap ns) (remote w) = (rsp, None) ->
    nilRecord rsp ->
    DeletedRun ap ns w (Panicked, afterRead ap ns w (rsp, None))
| DeletedMarked r res :
    reserved ns = false ->
    Read client ctx (readRequest ap ns) (remote w) = (Some r, None) ->
    ReadResponse.Resource r = Some res ->
    isMarkedForDeletion (Some res) = Returned true ->
    DeletedRun ap ns w (Returned None, afterRead ap ns w (Some r, None))
| DeletedLive r res dres st' :
    reserved ns = false ->
    Read client ctx (readRequest ap ns) (remote w) = (Some r, None) ->
    ReadResponse.Resource r = Some res ->
    isMarkedForDeletion (Some res) = Returned false ->
    Delete client ctx {| DeleteRequest.Id := Resource.Id res;
                         DeleteRequest.Version := "" |} (remote w) = (dres, st') ->
    DeletedRun ap ns w
      (Returned (option_map (fmt.Errorf_w "namespace delete failed: ") (snd dres)),
       {| remote := st';
          calls := (calls w ++
            [ReadCall ctx (readRequest ap ns) (Some r, None);
             DeleteCall ctx {| DeleteRequest.Id := Resource.Id res;
                               DeleteRequest.Version := "" |} dres])%list |}).

(** What [EnsureExists] returns after its write. *)
Definition afterWrite (err : option error) : bool * option error :=
  match err with
  | Some e => (false, Some (fmt.Errorf_w "consul namespace creation failed: " e))
  | None => (true, None)
  end.

(** The paths through [EnsureExists]. *)
Inductive ExistsRun (ap ns : string) (w : World Ctx St) :
    Outcome (bool * option error) * World Ctx St -> Prop :=
| ExistsReserved :
    reserved ns = true ->
    ExistsRun ap ns w (Returned (false, None), w)
| ExistsNil rsp :
    reserved ns = false ->
    Read client ctx (readRequest ap ns) (remote w) = (rsp, None) ->
    nilRecord rsp ->
    ExistsRun ap ns w (Panicked, afterRead ap ns w (rsp, None))
| ExistsMarked r res :
    reserved ns = false ->
    Read client ctx (readRequest ap ns) (remote w) = (Some r, None) ->
    ReadResponse.Resource r = Some res ->
    isMarkedForDeletion (Some res) = Returned true ->
    ExistsRun ap ns w
      (Returned (false, Some (fmt.Errorf_q isPrintTable "consul namespace " ns
                                " deletion in progress")),
       afterRead ap ns w (Some r, None))
| ExistsLive r res :
    reserved ns = false ->
    Read client ctx (readRequest ap ns) (remote w) = (Some r, None) ->
    ReadResponse.Resource r = Some res ->
    isMarkedForDeletion (Some res) = Returned false ->
    ExistsRun ap ns w (Returned (false, None), afterRead ap ns w (Some r, None))
| ExistsReadFailed rsp e :
    reserved ns = false ->
    Read client ctx (readRequest ap ns) (remote w) = (rsp, Some e) ->
    status.Code (Some e) <> codes.NotFound ->
    ExistsRun ap ns w
      (Returned (false, Some (fmt.Errorf_w "consul namespace read failed: " e)),
       afterRead ap ns w (rsp, Some e))
| ExistsEncodeFailed rsp e nsData encErr :
    reserved ns = false ->
    Read client ctx (readRequest ap ns) (remote w) = (rsp, Some e) ->
    status.Code (Some e) = codes.NotFound ->
    anypb_New payload = (nsData, Some encErr) ->
    ExistsRun ap ns w
      (Returned (false, Some encErr), afterRead ap ns w (rsp, Some e))
| ExistsWritten rsp e nsData wres st' :
    reserved ns = false ->
    Read client ctx (readRequest ap ns) (remote w) = (rsp, Some e) ->
    status.Code (Some e) = codes.NotFound ->
    anypb_New payload = (nsData, None) ->
    Write client ctx {| WriteRequest.Resource := Some (newNamespace ap ns nsData) |}
          (remote w) = (wres, st') ->
    ExistsRun ap ns w
      (Returned (afterWrite (snd wres)),
       {| remote := st';
          calls := (calls w ++
            [ReadCall ctx (readRequest ap ns) (rsp, Some e);
             WriteCall ctx
               {| WriteRequest.Resource := Some (newNamespace ap ns nsData) |}
               wres])%list |}).

End Runs.

(** ** Proof steps *)

(** Open a run of either operation down to the client's methods. *)
Ltac unfold_run :=
  unfold EnsureDeleted, EnsureExists, bind, call_Read, call_Write, call_Delete,
    lift, ret, deref;
  cbn [remote calls].

(** ** Facts about strings and quoting *)

Lemma append_nil (s : string) : String.append EmptyString s = s.
Proof. reflexivity. Qed.

Lemma append_cons (c : ascii) (a b : string) :
  String.append (String c a) b = String c (String.append a b).
Proof. reflexivity. Qed.

Lemma append_assoc (a b c : string) :
  String.append (String.append a b) c = String.append a (String.append b c).
Proof.
  induction a as [|x a IH]; [reflexivity|].
  now rewrite !append_cons, IH.
Qed.

Lemma hasPrefix_spec (p s : string) :
  Str.hasPrefix p s = true <-> exists post, s = String.append p post.
Proof.
  revert s. induction p as [|a p IH]; intros s; cbn [Str.hasPrefix].
  - split; [intros _; now exists s | reflexivity].
  - destruct s as [|b s].
    + split; [discriminate | intros [post H]; discriminate].
    + destruct (Ascii.eqb_spec a b) as [->|Hne].
      * rewrite IH. split; intros [post H]; exists post.
        -- now rewrite append_cons, H.
        -- rewrite append_cons in H. now injection H.
      * split; [discriminate|].
        intros [post H]. rewrite append_cons in H. injection H. congruence.
Qed.

Lemma containsb_spec (sub s : string) :
  Str.containsb sub s = true <-> Str.Contains sub s.
Proof.
  unfold Str.Contains. induction s as [|c s IH].
  - cbn [Str.containsb]. rewrite orb_false_r, hasPrefix_spec. split.
    + intros [post H]. now exists EmptyString, post.
    + intros [[|x pre] [post H]]; [now exists post | discriminate].
  - cbn [Str.containsb]. rewrite orb_true_iff, hasPrefix_spec, IH. split.
    + intros [[post H] | [pre [post H]]].
      * now exists EmptyString, post.
      * exists (String c pre), post. now rewrite append_cons, H.
    + intros [[|x pre] [post H]].
      * left. now exists post.
      * right. exists pre, post. rewrite append_cons in H. now injection H.
Qed.

Lemma Contains_middle (a sub b : string) :
  Str.Contains sub (String.append a (String.append sub b)).
Proof. now exists a, b. Qed.

Lemma Contains_trans (a b c : string) :
  Str.Contains a b -> Str.Contains b c -> Str.Contains a c.
Proof.
  intros [p1 [q1 ->]] [p2 [q2 ->]].
  exists (String.append p2 p1), (String.append q1 q2).
  now rewrite !append_assoc.
Qed.

Lemma char_byte (c : ascii) : Str.char (Str.byte c) = c.
Proof.
  unfold Str.char, Str.byte. rewrite N2Z.id. apply ascii_N_embedding.
Qed.

Section QuoteFacts.

Variable isPrintTable : Z -> bool.

(** A plain byte is copied as it is. *)
Lemma appendEscapedRune_plain (c : ascii) :
  strconv.plainByte c = true ->
  strconv.appendEscapedRune isPrintTable (Str.byte c) = String c EmptyString.
Proof.
  unfold strconv.plainByte, strconv.appendEscapedRune, strconv.IsPrint,
    utf8.AppendRune, utf8.between.
  intros H.
  apply andb_prop in H as [H H3]. apply andb_prop in H as [H H2].
  apply andb_prop in H as [H0 H1].
  apply Z.leb_le in H0, H1.
  apply negb_true_iff in H2, H3. rewrite H2, H3. cbn [orb].
  assert ((Str.byte c <=? 255) = true) as -> by (apply Z.leb_le; lia).
  assert ((32 <=? Str.byte c) = true) as -> by (apply Z.leb_le; lia).
  assert ((Str.byte c <=? 126) = true) as -> by (apply Z.leb_le; lia).
  assert ((0 <=? Str.byte c) = true) as -> by (apply Z.leb_le; lia).
  assert ((Str.byte c <=? 127) = true) as -> by (apply Z.leb_le; lia).
  cbn [andb]. now rewrite char_byte.
Qed.

Lemma quoteLoop_plain (s : string) (fuel : nat) :
  strconv.plainName s = true ->
  (String.length s <= fuel)%nat ->
  strconv.quoteLoop isPrintTable fuel s = s.
Proof.
  revert fuel. induction s as [|c s IH]; intros fuel Hs Hlen.
  - destruct fuel; reflexivity.
  - destruct fuel as [|fuel]; [cbn in Hlen; lia|].
    cbn [strconv.plainName] in Hs. apply andb_prop in Hs as [Hc Hs].
    cbn [strconv.quoteLoop].
    assert (Hlt : Str.byte c <= 126).
    { unfold strconv.plainByte, utf8.between in Hc.
      apply andb_prop in Hc as [Hc _]. apply andb_prop in Hc as [Hc _].
      apply andb_prop in Hc as [_ Hc]. now apply Z.leb_le in Hc. }
    assert ((utf8.RuneSelf <=? Str.byte c) = false) as ->
      by (apply Z.leb_gt; unfold utf8.RuneSelf; lia).
    assert ((Str.byte c =? utf8.RuneError) = false) as ->
      by (apply Z.eqb_neq; unfold utf8.RuneError; lia).
    cbn [Nat.eqb andb Str.drop].
    rewrite appendEscapedRune_plain by assumption.
    rewrite append_cons, append_nil, IH; [reflexivity | assumption |].
    cbn in Hlen. lia.
Qed.

(** A plain name is quoted by putting it between double quotes. *)
Lemma Quote_plain (s : string) :
  strconv.plainName s = true ->
  strconv.Quote isPrintTable s =
  String strconv.dquote (String.append s (String strconv.dquote EmptyString)).
Proof.
  intros Hs. unfold strconv.Quote. now rewrite quoteLoop_plain.
Qed.

Lemma Quote_plain_Contains (s : string) :
  strconv.plainName s = true -> Str.Contains s (strconv.Quote isPrintTable s).
Proof.
  intros Hs. rewrite Quote_plain by assumption.
  exists (String strconv.dquote EmptyString), (String strconv.dquote EmptyString).
  reflexivity.
Qed.

End QuoteFacts.

(** ** Properties of the reconciler *)

Lemma Errorf_w_wraps (prefix context : string) (cause : error) :
  wraps prefix context cause
    (Some (fmt.Errorf_w (String.append prefix (String.append context ": ")) cause)).
Proof.
  eexists. split; [reflexivity|]. split; [reflexivity|].
  unfold fmt.Errorf_w. cbn [errors.Error]. now rewrite !append_assoc.
Qed.

Lemma wraps_Contains (prefix context : string) (cause : error) (err : option error) :
  wraps prefix context cause err ->
  exists x, err = Some x /\ Str.Contains context (errors.Error x).
Proof.
  intros [x [-> [_ Htext]]]. exists x. split; [reflexivity|].
  rewrite Htext. apply Contains_middle.
Qed.

Lemma reserved_false (ns : string) :
  reserved ns = false <->
  ns <> common.WildcardNamespace /\ ns <> common.DefaultNamespaceName.
Proof.
  unfold reserved. rewrite orb_false_iff, !bool_decide_eq_false. reflexivity.
Qed.

Section Properties.

Context {Ctx St : Type}.
Variable isPrintTable : Z -> bool.
Variable anypb_New : pbtenancy.Namespace -> option Any.t * option error.
Variable ctx : Ctx.
Variable client : ResourceServiceClient Ctx St.


(** C7. For every partition, when the namespace name is the wildcard or
    the default name, [EnsureDeleted] returns nil and [EnsureExists]
    returns [(false, nil)], and neither makes a remote call: the world
    (remote state and calls issued) is the one they started from. *)
Theorem reserved_names_are_noops (ap ns : string) (w : World Ctx St) :
  ns = common.WildcardNamespace \/ ns = common.DefaultNamespaceName ->
  EnsureDeleted ctx client ap ns w = (Returned None, w) /\
  EnsureExists isPrintTable anypb_New ctx client ap ns w = (Returned (false, None), w).
Proof.
  intros H.
  assert (Hr : reserved ns = true).
  { unfold reserved. apply orb_true_iff.
    destruct H as [H | H]; [left | right]; now apply bool_decide_eq_true. }
  unfold EnsureDeleted, EnsureExists. rewrite Hr. split; reflexivity.
Qed.

(** C3. For every record, [isMarkedForDeletion] returns, and it returns
    true exactly when the metadata mapping is present and has the key
    [deletionTimestamp]; whatever value is stored under the key (the empty
    string too) the answer is true; with no metadata mapping, or with a
    mapping that lacks the key, it is false. *)
Theorem isMarkedForDeletion_iff_key (res : Resource.t) :
  (isMarkedForDeletion (Some res) = Returned true <->
   exists metadata, Resource.Metadata res = Some metadata /\
                    is_Some (metadata !! "deletionTimestamp")) /\
  (isMarkedForDeletion (Some res) = Returned false <->
   Resource.Metadata res = None \/
   exists metadata, Resource.Metadata res = Some metadata /\
                    metadata !! "deletionTimestamp" = None) /\
  (forall (metadata : gmap string string) (v : string),
     Resource.Metadata res = Some (<["deletionTimestamp" := v]> metadata) ->
     isMarkedForDeletion (Some res) = Returned true).
Proof.
  unfold isMarkedForDeletion, DeletionTimestampKey.
  destruct (Resource.Metadata res) as [md|] eqn:Hmd.
  - destruct (md !! "deletionTimestamp") as [v|] eqn:Hk.
    + split; [|split].
      * split; [intros _; exists md; split; [reflexivity | now exists v] | reflexivity].
      * split; [discriminate|].
        intros [H | [md' [H1 H2]]]; [discriminate|]. injection H1 as <-. congruence.
      * reflexivity.
    + split; [|split].
      * split; [discriminate|].
        intros [md' [H1 [v H2]]]. injection H1 as <-. congruence.
      * split; [|reflexivity]. intros _. right. now exists md.
      * intros md' v H. injection H as ->.
        rewrite lookup_insert_eq in Hk. discriminate.
  - split; [|split].
    + split; [discriminate | intros [md [H _]]; discriminate].
    + split; [intros _; now left | reflexivity].
    + intros md v H. discriminate.
Qed.

(** C1. For every partition and every name that is not reserved, when
    the read fails with code NotFound (and the encoder returns the
    envelope [nsData] for the payload whose description is
    [Auto-generated by consul-k8s]), [EnsureExists] makes the read and
    then exactly one write; the resource written has the metadata
    [external-source = kubernetes], the identity made of the name, the
    namespace resource type and the tenancy of the partition, and
    [nsData] as data; when the write succeeds the result is
    [(true, nil)]. *)
Theorem EnsureExists_absent_writes_once (ap ns : string) (w : World Ctx St)
    (rsp : option ReadResponse.t) (e : error) (nsData : option Any.t)
    (wres : option WriteResponse.t * option error) (st' : St) :
  reserved ns = false ->
  Read client ctx (readRequest ap ns) (remote w) = (rsp, Some e) ->
  status.Code (Some e) = codes.NotFound ->
  anypb_New payload = (nsData, None) ->
  Write client ctx {| WriteRequest.Resource := Some (newNamespace ap ns nsData) |}
        (remote w) = (wres, st') ->
  snd (EnsureExists isPrintTable anypb_New ctx client ap ns w) =
    {| remote := st';
       calls := (calls w ++
         [ReadCall ctx (readRequest ap ns) (rsp, Some e);
          WriteCall ctx {| WriteRequest.Resource := Some (newNamespace ap ns nsData) |}
                    wres])%list |} /\
  Resource.Metadata (newNamespace ap ns nsData) =
    Some {[ "external-source" := "kubernetes" ]} /\
  Resource.Id (newNamespace ap ns nsData) =
    Some {| ID.Uid := ""; ID.Name := ns;
            ID.Type_ := Some pbtenancy.NamespaceType;
            ID.Tenancy := Some {| Tenancy.Partition := ap; Tenancy.Namespace := "";
                                  Tenancy.PeerName := "" |} |} /\
  Resource.Data (newNamespace ap ns nsData) = nsData /\
  pbtenancy.Description payload = "Auto-generated by consul-k8s" /\
  (snd wres = None -> fst (EnsureExists isPrintTable anypb_New ctx client ap ns w) = Returned (true, None)).
Proof.
  intros Hns Hread Hcode Henc Hwrite.
  unfold_run. rewrite Hns, Hread, Hcode, Henc. cbn [negb remote calls].
  rewrite bool_decide_eq_true_2 by reflexivity. cbn [negb remote calls].
  rewrite Hwrite.
  destruct wres as [wrsp [we|]]; cbn [fst snd].
  - rewrite <- app_assoc. repeat split; try reflexivity. discriminate.
  - rewrite <- app_assoc. repeat split; reflexivity.
Qed.

(** C2. For every partition and every name that is not reserved, when
    the read succeeds with a record that is not marked for deletion,
    [EnsureDeleted] makes the read and then exactly one delete, for the
    identity of the record read and with the empty version; it returns
    nil when the delete succeeds, and when the delete fails with [e] it
    returns [namespace delete failed: ] followed by the text of [e],
    wrapping [e]. *)
Theorem EnsureDeleted_live_deletes_once (ap ns : string) (w : World Ctx St)
    (rsp : ReadResponse.t) (res : Resource.t)
    (dres : option DeleteResponse.t * option error) (st' : St) :
  reserved ns = false ->
  Read client ctx (readRequest ap ns) (remote w) = (Some rsp, None) ->
  ReadResponse.Resource rsp = Some res ->
  isMarkedForDeletion (Some res) = Returned false ->
  Delete client ctx {| DeleteRequest.Id := Resource.Id res;
                       DeleteRequest.Version := "" |} (remote w) = (dres, st') ->
  snd (EnsureDeleted ctx client ap ns w) =
    {| remote := st';
       calls := (calls w ++
         [ReadCall ctx (readRequest ap ns) (Some rsp, None);
          DeleteCall ctx {| DeleteRequest.Id := Resource.Id res;
                            DeleteRequest.Version := "" |} dres])%list |} /\
  (snd dres = None -> fst (EnsureDeleted ctx client ap ns w) = Returned None) /\
  (forall e, snd dres = Some e ->
     fst (EnsureDeleted ctx client ap ns w) =
       Returned (Some (ErrorfW (String.append "namespace delete failed: "
                                              (errors.Error e)) e))).
Proof.
  intros Hns Hread Hres Hmark Hdel.
  unfold_run. rewrite Hns, Hread. cbn [status.Code remote calls].
  rewrite bool_decide_eq_false_2 by discriminate.
  rewrite Hres, Hmark. cbn [remote calls]. rewrite Hdel.
  destruct dres as [drsp [de|]]; cbn [fst snd]; rewrite <- app_assoc.
  - repeat split; try reflexivity; try discriminate.
    intros e He. injection He as <-. reflexivity.
  - repeat split; try reflexivity. intros e He. discriminate.
Qed.

(** C5. For every partition and every name that is not reserved, when
    the read fails with code NotFound, or succeeds with a record marked
    for deletion, [EnsureDeleted] returns nil after the read alone: no
    delete is issued and the remote state is as it was.  A second call
    that observes either state therefore returns nil too. *)
Theorem EnsureDeleted_absent_or_marked_is_noop (ap ns : string) (w : World Ctx St)
    (rsp : option ReadResponse.t) (err : option error) :
  reserved ns = false ->
  Read client ctx (readRequest ap ns) (remote w) = (rsp, err) ->
  status.Code err = codes.NotFound \/
  (err = None /\ exists r, rsp = Some r /\
     isMarkedForDeletion (ReadResponse.Resource r) = Returned true) ->
  EnsureDeleted ctx client ap ns w =
    (Returned None,
     {| remote := remote w;
        calls := (calls w ++ [ReadCall ctx (readRequest ap ns) (rsp, err)])%list |}).
Proof.
  intros Hns Hread [Hcode | [-> [r [-> Hmark]]]].
  - unfold_run. rewrite Hns, Hread, Hcode.
    rewrite bool_decide_eq_true_2 by reflexivity. reflexivity.
  - unfold_run. rewrite Hns, Hread. cbn [status.Code remote calls].
    rewrite bool_decide_eq_false_2 by discriminate.
    rewrite Hmark. reflexivity.
Qed.

(** C6. For every partition and every name that is not reserved, when
    the read succeeds with a record that is not marked for deletion,
    [EnsureExists] returns [(false, nil)] after the read alone: no write
    is issued.  In particular this holds for a call that reads back a
    record with the metadata written by an earlier creating call. *)
Theorem EnsureExists_live_is_noop (ap ns : string) (w : World Ctx St)
    (rsp : ReadResponse.t) (res : Resource.t) :
  reserved ns = false ->
  Read client ctx (readRequest ap ns) (remote w) = (Some rsp, None) ->
  ReadResponse.Resource rsp = Some res ->
  isMarkedForDeletion (Some res) = Returned false \/
  (exists nsData, Resource.Metadata res =
                  Resource.Metadata (newNamespace ap ns nsData)) ->
  EnsureExists isPrintTable anypb_New ctx client ap ns w =
    (Returned (false, None),
     {| remote := remote w;
        calls := (calls w ++
          [ReadCall ctx (readRequest ap ns) (Some rsp, None)])%list |}).
Proof.
  intros Hns Hread Hres Hlive.
  assert (Hmark : isMarkedForDeletion (Some res) = Returned false).
  { destruct Hlive as [H | [nsData H]]; [exact H|].
    unfold isMarkedForDeletion. rewrite H. reflexivity. }
  unfold_run. rewrite Hns, Hread. cbn [remote calls].
  rewrite Hres, Hmark. reflexivity.
Qed.

(** C9. For every partition and every name that is not reserved, when
    the read fails with code NotFound and the encoder fails with
    [encErr], [EnsureExists] returns [(false, encErr)], the encoder's
    error itself, after the read alone: no write is issued and the remote
    state is as it was. *)
Theorem EnsureExists_encoding_error_unwrapped (ap ns : string) (w : World Ctx St)
    (rsp : option ReadResponse.t) (e encErr : error) (nsData : option Any.t) :
  reserved ns = false ->
  Read client ctx (readRequest ap ns) (remote w) = (rsp, Some e) ->
  status.Code (Some e) = codes.NotFound ->
  anypb_New payload = (nsData, Some encErr) ->
  EnsureExists isPrintTable anypb_New ctx client ap ns w =
    (Returned (false, Some encErr),
     {| remote := remote w;
        calls := (calls w ++
          [ReadCall ctx (readRequest ap ns) (rsp, Some e)])%list |}).
Proof.
  intros Hns Hread Hcode Henc.
  unfold_run. rewrite Hns, Hread, Hcode, Henc.
  rewrite bool_decide_eq_true_2 by reflexivity. reflexivity.
Qed.

(** C4, as the code has it. For every partition and every name that is
    not reserved, when the read succeeds with a record marked for
    deletion, [EnsureExists] returns false and an error after the read
    alone (no write is issued); the text of the error is
    [consul namespace ], the name as the verb [%q] prints it, and
    [ deletion in progress].  A name made only of printable ASCII
    characters other than the double quote and the backslash is printed
    as it is between double quotes, so the text contains the name. *)
Theorem EnsureExists_marked_refuses (ap ns : string) (w : World Ctx St)
    (rsp : ReadResponse.t) (res : Resource.t) :
  reserved ns = false ->
  Read client ctx (readRequest ap ns) (remote w) = (Some rsp, None) ->
  ReadResponse.Resource rsp = Some res ->
  isMarkedForDeletion (Some res) = Returned true ->
  exists err,
    EnsureExists isPrintTable anypb_New ctx client ap ns w =
      (Returned (false, Some err),
       {| remote := remote w;
          calls := (calls w ++
            [ReadCall ctx (readRequest ap ns) (Some rsp, None)])%list |}) /\
    errors.Error err =
      String.append "consul namespace "
        (String.append (strconv.Quote isPrintTable ns) " deletion in progress") /\
    errors.Unwrap err = None /\
    (strconv.plainName ns = true -> Str.Contains ns (errors.Error err)).
Proof.
  intros Hns Hread Hres Hmark.
  unfold_run. rewrite Hns, Hread. cbn [remote calls]. rewrite Hres, Hmark.
  eexists. split; [reflexivity|]. cbn [fmt.Errorf_q errors.Error errors.Unwrap].
  split; [reflexivity|]. split; [reflexivity|].
  intros Hplain.
  eapply Contains_trans; [apply Quote_plain_Contains, Hplain|].
  apply Contains_middle.
Qed.

(** C8. For every failure of a remote call other than a read that fails
    with code NotFound, the error returned keeps the cause (unwrapping it
    gives the cause back) and its text is the context of the call that
    failed, a colon and the text of the cause: [namespace read failed] and
    [namespace delete failed] from [EnsureDeleted],
    [consul namespace read failed] and [consul namespace creation failed]
    from [EnsureExists], which returns false with it. *)
Theorem remote_failures_are_wrapped (ap ns : string) (w : World Ctx St)
    (rsp : option ReadResponse.t) (err : option error) :
  reserved ns = false ->
  Read client ctx (readRequest ap ns) (remote w) = (rsp, err) ->
  (forall e, err = Some e -> status.Code err <> codes.NotFound ->
     (exists r, fst (EnsureDeleted ctx client ap ns w) = Returned r /\
                wraps "" "namespace read failed" e r) /\
     (exists r, fst (EnsureExists isPrintTable anypb_New ctx client ap ns w)
                = Returned (false, r) /\
                wraps "consul " "namespace read failed" e r)) /\
  (forall r res drsp e st',
     err = None -> rsp = Some r -> ReadResponse.Resource r = Some res ->
     isMarkedForDeletion (Some res) = Returned false ->
     Delete client ctx {| DeleteRequest.Id := Resource.Id res;
                          DeleteRequest.Version := "" |} (remote w)
     = ((drsp, Some e), st') ->
     exists r, fst (EnsureDeleted ctx client ap ns w) = Returned r /\
               wraps "" "namespace delete failed" e r) /\
  (forall nsData wrsp e st',
     status.Code err = codes.NotFound ->
     anypb_New payload = (nsData, None) ->
     Write client ctx {| WriteRequest.Resource := Some (newNamespace ap ns nsData) |}
           (remote w) = ((wrsp, Some e), st') ->
     exists r, fst (EnsureExists isPrintTable anypb_New ctx client ap ns w)
               = Returned (false, r) /\
               wraps "consul " "namespace creation failed" e r).
Proof.
  intros Hns Hread. split; [|split].
  - intros e -> Hcode. split.
    + unfold_run. rewrite Hns, Hread.
      rewrite bool_decide_eq_false_2 by assumption.
      eexists. split; [reflexivity|].
      apply (Errorf_w_wraps "" "namespace read failed").
    + unfold_run. rewrite Hns, Hread.
      rewrite bool_decide_eq_false_2 by assumption.
      eexists. split; [reflexivity|].
      apply (Errorf_w_wraps "consul " "namespace read failed").
  - intros r res drsp e st' -> -> Hres Hmark Hdel.
    unfold_run. rewrite Hns, Hread. cbn [status.Code remote calls].
    rewrite bool_decide_eq_false_2 by discriminate.
    rewrite Hres, Hmark. cbn [remote calls]. rewrite Hdel.
    eexists. split; [reflexivity|].
    apply (Errorf_w_wraps "" "namespace delete failed").
  - intros nsData wrsp e st' Hcode Henc Hwrite.
    destruct err as [e0|]; [|discriminate].
    unfold_run. rewrite Hns, Hread, Hcode, Henc.
    rewrite bool_decide_eq_true_2 by reflexivity.
    cbn [negb remote calls]. rewrite Hwrite.
    eexists. split; [reflexivity|].
    apply (Errorf_w_wraps "consul " "namespace creation failed").
Qed.

(** C10. For every partition, name and behaviour of the remote client:
    when [EnsureExists] returns true, the error is nil and the calls it
    made are the read and one write that returned no error; whenever it
    returns an error the boolean is false; it issues no delete; and
    [EnsureDeleted] issues no write. *)
Theorem created_only_by_successful_write (ap ns : string) (w : World Ctx St) :
  (exists new,
     calls (snd (EnsureExists isPrintTable anypb_New ctx client ap ns w))
     = (calls w ++ new)%list /\
     List.filter isDelete new = [] /\
     (forall err,
        fst (EnsureExists isPrintTable anypb_New ctx client ap ns w)
        = Returned (true, err) ->
        err = None /\
        exists rres wreq wrsp,
          new = [ReadCall ctx (readRequest ap ns) rres;
                 WriteCall ctx wreq (wrsp, None)] /\
          Write client ctx wreq (remote w) =
            ((wrsp, None),
             remote (snd (EnsureExists isPrintTable anypb_New ctx client ap ns w)))) /\
     (forall b e,
        fst (EnsureExists isPrintTable anypb_New ctx client ap ns w)
        = Returned (b, Some e) -> b = false)) /\
  (exists new,
     calls (snd (EnsureDeleted ctx client ap ns w)) = (calls w ++ new)%list /\
     List.filter isWrite new = []).
Proof.
  split.
  - unfold_run. destruct (reserved ns); cbv beta iota.
    { exists []. rewrite app_nil_r. cbn [fst snd].
      repeat split; try reflexivity; intros; congruence. }
    destruct (Read client ctx (readRequest ap ns) (remote w)) as [rsp [e|]] eqn:Hread;
      cbv beta iota.
    + destruct (bool_decide (status.Code (Some e) = codes.NotFound));
        cbn [negb]; cbv beta iota.
      * destruct (anypb_New payload) as [nsData [encErr|]]; cbv beta iota.
        { eexists. split; [reflexivity|]. cbn [fst snd].
          repeat split; try reflexivity; intros; congruence. }
        cbn [remote calls].
        destruct (Write client ctx _ (remote w)) as [[wrsp [we|]] st'] eqn:Hwrite;
          cbv beta iota.
        { eexists. rewrite <- app_assoc. split; [reflexivity|]. cbn [fst snd].
          repeat split; try reflexivity; intros; congruence. }
        eexists. rewrite <- app_assoc. split; [reflexivity|]. cbn [fst snd remote].
        split; [reflexivity|]. split; [|intros; congruence].
        intros err H. injection H as <-. split; [reflexivity|].
        do 3 eexists. split; [reflexivity | exact Hwrite].
      * eexists. split; [reflexivity|]. cbn [fst snd].
        repeat split; try reflexivity; intros; congruence.
    + cbn [remote calls].
      destruct rsp as [r|]; cbv beta iota; cbn [remote calls];
        [destruct (isMarkedForDeletion (ReadResponse.Resource r)) as [[|]|];
         cbv beta iota|];
        (eexists; split; [reflexivity|]; cbn [fst snd];
         repeat split; try reflexivity; intros; congruence).
  - unfold_run. destruct (reserved ns); cbv beta iota.
    { exists []. rewrite app_nil_r. split; reflexivity. }
    destruct (Read client ctx (readRequest ap ns) (remote w)) as [rsp err];
      cbv beta iota.
    destruct (bool_decide (status.Code err = codes.NotFound)); cbv beta iota.
    { eexists. split; reflexivity. }
    destruct err as [e|]; cbv beta iota.
    { eexists. split; reflexivity. }
    cbn [remote calls].
    destruct rsp as [r|]; cbv beta iota; cbn [remote calls];
      [|eexists; split; reflexivity].
    destruct (isMarkedForDeletion (ReadResponse.Resource r)) as [[|]|] eqn:Hmark;
      cbv beta iota; try (eexists; split; reflexivity).
    destruct (ReadResponse.Resource r) as [res|]; [|discriminate].
    cbv beta iota. cbn [remote calls].
    destruct (Delete client ctx _ (remote w)) as [[drsp [de|]] st'];
      cbv beta iota;
      (eexists; rewrite <- app_assoc; split; reflexivity).
Qed.

End Properties.

(** ** Concrete runs *)

(** Two calls in a row on the sample service: the first deletes, the
    second reads NotFound and does nothing. *)
Example EnsureDeleted_twice :
  let first := EnsureDeleted tt Sample.client "ap1" "ns1"
                 (Sample.holding Sample.live None) in
  let second := EnsureDeleted tt Sample.client "ap1" "ns1"
                  {| remote := remote (snd first); calls := [] |} in
  fst first = Returned None /\
  List.map isDelete (calls (snd first)) = [false; true] /\
  fst second = Returned None /\
  List.map isDelete (calls (snd second)) = [false].
Proof. vm_compute. repeat split; reflexivity. Qed.

(** The first call creates the namespace, the second finds it. *)
Example EnsureExists_twice :
  let first := EnsureExists Sample.isPrintTable Sample.encode tt Sample.client
                 "ap1" "ns1" Sample.empty in
  let second := EnsureExists Sample.isPrintTable Sample.encode tt Sample.client
                  "ap1" "ns1" {| remote := remote (snd first); calls := [] |} in
  fst first = Returned (true, None) /\
  List.map isWrite (calls (snd first)) = [false; true] /\
  fst second = Returned (false, None) /\
  List.map isWrite (calls (snd second)) = [false].
Proof. vm_compute. repeat split; reflexivity. Qed.

(** A successful read that carries no resource makes either operation
    panic on the nil pointer, before any write or delete. *)
Example nil_resource_panics :
  let c := {| Read := fun _ _ _ => (Some {| ReadResponse.Resource := None |}, None);
              Write := Write Sample.client;
              Delete := Delete Sample.client |} in
  fst (EnsureDeleted tt c "ap1" "ns1" Sample.empty) = Panicked /\
  fst (EnsureExists Sample.isPrintTable Sample.encode tt c "ap1" "ns1" Sample.empty)
  = Panicked.
Proof. split; reflexivity. Qed.

Example Quote_plain_name :
  strconv.Quote Sample.isPrintTable "team-a" =
  String strconv.dquote (String.append "team-a" (String strconv.dquote EmptyString)).
Proof. reflexivity. Qed.

Example Quote_backslash :
  strconv.Quote Sample.isPrintTable "a\b" =
  String strconv.dquote
    (String.append "a" (String strconv.backslash (String strconv.backslash
       (String.append "b" (String strconv.dquote EmptyString))))).
Proof. reflexivity. Qed.

(** C4, as first stated, fails: for the name [a\b], which is not reserved,
    and a record marked for deletion, [EnsureExists] returns an error and
    issues no write, but the text of the error has the name with its
    backslash doubled and does not contain the name. *)
Lemma EnsureExists_marked_text_escapes_name :
  reserved "a\b" = false /\
  Read Sample.client tt (readRequest "ap1" "a\b")
       (remote (Sample.holding Sample.escaped None))
  = (Some {| ReadResponse.Resource := Some Sample.escaped |}, None) /\
  isMarkedForDeletion (Some Sample.escaped) = Returned true /\
  exists err,
    fst (EnsureExists Sample.isPrintTable Sample.encode tt Sample.client
           "ap1" "a\b" (Sample.holding Sample.escaped None))
    = Returned (false, Some err) /\
    ~ Str.Contains "a\b" (errors.Error err).
Proof.
  split; [reflexivity|]. split; [reflexivity|]. split; [reflexivity|].
  eexists. split; [vm_compute; reflexivity|].
  intros H. apply containsb_spec in H. vm_compute in H. discriminate H.
Qed.

Lemma reserved_names_are_noops_witness :
  EnsureDeleted tt Sample.client "ap1" "default" (Sample.holding Sample.live None)
  = (Returned None, Sample.holding Sample.live None) /\
  EnsureExists Sample.isPrintTable Sample.encode tt Sample.client "ap1" "default"
    (Sample.holding Sample.live None)
  = (Returned (false, None), Sample.holding Sample.live None).
Proof.
  apply (reserved_names_are_noops Sample.isPrintTable Sample.encode tt Sample.client
           "ap1" "default" (Sample.holding Sample.live None)).
  right. reflexivity.
Defined.

Lemma isMarkedForDeletion_iff_key_witness :
  isMarkedForDeletion (Some Sample.marked) = Returned true.
Proof.
  apply (isMarkedForDeletion_iff_key Sample.marked).
  exists {[ "deletionTimestamp" := "" ]}. split; [reflexivity|].
  exists "". reflexivity.
Defined.

Lemma EnsureExists_absent_writes_once_witness :
  fst (EnsureExists Sample.isPrintTable Sample.encode tt Sample.client "ap1" "ns1"
         Sample.empty) = Returned (true, None).
Proof.
  pose (req := {| WriteRequest.Resource :=
                    Some (newNamespace "ap1" "ns1" (fst (Sample.encode payload))) |}).
  pose (out := Write Sample.client tt req (remote Sample.empty)).
  apply (EnsureExists_absent_writes_once Sample.isPrintTable Sample.encode tt
           Sample.client "ap1" "ns1" Sample.empty None Sample.notFound
           (fst (Sample.encode payload)) (fst out) (snd out));
    reflexivity.
Defined.

Lemma EnsureDeleted_live_deletes_once_witness :
  fst (EnsureDeleted tt Sample.client "ap1" "ns1" (Sample.holding Sample.live None))
  = Returned None.
Proof.
  pose (req := {| DeleteRequest.Id := Resource.Id Sample.live;
                  DeleteRequest.Version := "" |}).
  pose (out := Delete Sample.client tt req (remote (Sample.holding Sample.live None))).
  apply (EnsureDeleted_live_deletes_once tt Sample.client "ap1" "ns1"
           (Sample.holding Sample.live None)
           {| ReadResponse.Resource := Some Sample.live |} Sample.live
           (fst out) (snd out));
    reflexivity.
Defined.

Lemma EnsureExists_marked_refuses_witness :
  exists err,
    EnsureExists Sample.isPrintTable Sample.encode tt Sample.client "ap1" "ns1"
      (Sample.holding Sample.marked None)
    = (Returned (false, Some err),
       {| remote := remote (Sample.holding Sample.marked None);
          calls := [ReadCall tt (readRequest "ap1" "ns1")
                      (Some {| ReadResponse.Resource := Some Sample.marked |}, None)] |})
    /\ Str.Contains "ns1" (errors.Error err).
Proof.
  destruct (EnsureExists_marked_refuses Sample.isPrintTable Sample.encode tt
              Sample.client "ap1" "ns1" (Sample.holding Sample.marked None)
              {| ReadResponse.Resource := Some Sample.marked |} Sample.marked
              eq_refl eq_refl eq_refl eq_refl) as [err [Hrun [_ [_ Hname]]]].
  exists err. split; [exact Hrun | apply Hname; reflexivity].
Defined.

Lemma EnsureDeleted_absent_or_marked_is_noop_witness :
  EnsureDeleted tt Sample.client "ap1" "ns1" Sample.empty
  = (Returned None,
     {| remote := remote Sample.empty;
        calls := [ReadCall tt (readRequest "ap1" "ns1") (None, Some Sample.notFound)] |}).
Proof.
  apply (EnsureDeleted_absent_or_marked_is_noop tt Sample.client "ap1" "ns1"
           Sample.empty None (Some Sample.notFound)); [reflexivity | reflexivity |].
  left. reflexivity.
Defined.

Lemma EnsureExists_live_is_noop_witness :
  fst (EnsureExists Sample.isPrintTable Sample.encode tt Sample.client "ap1" "ns1"
         Sample.created) = Returned (false, None).
Proof.
  pose (res := newNamespace "ap1" "ns1" (fst (Sample.encode payload))).
  rewrite (EnsureExists_live_is_noop Sample.isPrintTable Sample.encode tt
             Sample.client "ap1" "ns1" Sample.created
             {| ReadResponse.Resource := Some res |} res);
    [reflexivity | reflexivity | reflexivity | reflexivity |].
  right. exists (fst (Sample.encode payload)). reflexivity.
Defined.

Lemma remote_failures_are_wrapped_witness :
  exists r,
    fst (EnsureDeleted tt (Sample.broken Sample.unavailable) "ap1" "ns1" Sample.empty)
    = Returned r /\
    wraps "" "namespace read failed" Sample.unavailable r.
Proof.
  apply (remote_failures_are_wrapped Sample.isPrintTable Sample.encode tt
           (Sample.broken Sample.unavailable) "ap1" "ns1" Sample.empty None
           (Some Sample.unavailable) eq_refl eq_refl);
    [reflexivity | discriminate].
Defined.

Lemma EnsureExists_encoding_error_unwrapped_witness :
  EnsureExists Sample.isPrintTable Sample.noEncode tt Sample.client "ap1" "ns1"
    Sample.empty
  = (Returned (false, Some Sample.encodeError),
     {| remote := remote Sample.empty;
        calls := [ReadCall tt (readRequest "ap1" "ns1") (None, Some Sample.notFound)] |}).
Proof.
  apply (EnsureExists_encoding_error_unwrapped Sample.isPrintTable Sample.noEncode tt
           Sample.client "ap1" "ns1" Sample.empty None Sample.notFound
           Sample.encodeError None);
    reflexivity.
Defined.

Lemma created_only_by_successful_write_witness :
  exists new,
    calls (snd (EnsureDeleted tt Sample.client "ap1" "ns1"
                  (Sample.holding Sample.live None)))
    = (calls (Sample.holding Sample.live None) ++ new)%list /\
    List.filter isWrite new = [].
Proof.
  exact (proj2 (created_only_by_successful_write Sample.isPrintTable Sample.encode tt
                  Sample.client "ap1" "ns1" (Sample.holding Sample.live None))).
Defined.

(** ** Every run follows one of the paths *)

Lemma newCalls_app {Ctx St : Type} (w : World Ctx St) (st : St) (new : list (Call Ctx)) :
  newCalls w {| remote := st; calls := (calls w ++ new)%list |} = new.
Proof. unfold newCalls. cbn [calls]. apply drop_app_length. Qed.

Lemma newCalls_same {Ctx St : Type} (w : World Ctx St) : newCalls w w = [].
Proof. unfold newCalls. apply drop_all. Qed.

Lemma isMarkedForDeletion_returns (res : Resource.t) :
  isMarkedForDeletion (Some res) <> Panicked.
Proof.
  unfold isMarkedForDeletion.
  destruct (Resource.Metadata res) as [md|]; [|discriminate].
  destruct (md !! DeletionTimestampKey); discriminate.
Qed.

Lemma Sample_reads_its_writes : ReadsItsWrites Sample.client.
Proof.
  intros ctx res rsp st st' H. cbn in H.
  destruct (Sample.failing st) as [e|]; [discriminate H|].
  injection H as _ <-. exists res. split; [|reflexivity].
  cbn. now rewrite lookup_insert_eq.
Qed.

Section RunFacts.

Context {Ctx St : Type}.
Variable isPrintTable : Z -> bool.
Variable anypb_New : pbtenancy.Namespace -> option Any.t * option error.
Variable ctx : Ctx.
Variable client : ResourceServiceClient Ctx St.

Lemma EnsureDeleted_run (ap ns : string) (w : World Ctx St) :
  DeletedRun ctx client ap ns w (EnsureDeleted ctx client ap ns w).
Proof.
  unfold_run. destruct (reserved ns) eqn:Hns; cbv beta iota.
  { now apply DeletedReserved. }
  destruct (Read client ctx (readRequest ap ns) (remote w)) as [rsp err] eqn:Hread.
  cbv beta iota.
  destruct (bool_decide (status.Code err = codes.NotFound)) eqn:Hcode; cbv beta iota.
  { apply bool_decide_eq_true in Hcode. now apply DeletedAbsent. }
  apply bool_decide_eq_false in Hcode.
  destruct err as [e|]; cbv beta iota.
  { now apply DeletedReadFailed. }
  destruct rsp as [r|]; cbv beta iota; cbn [remote calls].
  2:{ apply DeletedNil; [assumption | assumption | now left]. }
  destruct (ReadResponse.Resource r) as [res|] eqn:Hres.
  2:{ cbn [isMarkedForDeletion]. cbv beta iota.
      apply DeletedNil; [assumption | assumption | right; now exists r]. }
  destruct (isMarkedForDeletion (Some res)) as [[|]|] eqn:Hmark; cbv beta iota.
  - now apply (DeletedMarked ctx client ap ns w r res).
  - cbn [remote calls].
    destruct (Delete client ctx _ (remote w)) as [[drsp derr] st'] eqn:Hdel.
    cbv beta iota. rewrite <- app_assoc.
    pose proof (DeletedLive ctx client ap ns w r res (drsp, derr) st'
                  Hns Hread Hres Hmark Hdel) as Hrun.
    destruct derr; exact Hrun.
  - now apply isMarkedForDeletion_returns in Hmark.
Qed.

Lemma EnsureExists_run (ap ns : string) (w : World Ctx St) :
  ExistsRun isPrintTable anypb_New ctx client ap ns w
    (EnsureExists isPrintTable anypb_New ctx client ap ns w).
Proof.
  unfold_run. destruct (reserved ns) eqn:Hns; cbv beta iota.
  { now apply ExistsReserved. }
  destruct (Read client ctx (readRequest ap ns) (remote w)) as [rsp [e|]] eqn:Hread;
    cbv beta iota.
  - destruct (bool_decide (status.Code (Some e) = codes.NotFound)) eqn:Hcode;
      cbn [negb]; cbv beta iota.
    + apply bool_decide_eq_true in Hcode.
      destruct (anypb_New payload) as [nsData [encErr|]] eqn:Henc; cbv beta iota.
      { now apply (ExistsEncodeFailed _ _ _ _ ap ns w rsp e nsData encErr). }
      cbn [remote calls].
      destruct (Write client ctx _ (remote w)) as [[wrsp werr] st'] eqn:Hwrite.
      cbv beta iota. rewrite <- app_assoc.
      pose proof (ExistsWritten isPrintTable anypb_New ctx client ap ns w rsp e nsData
                    (wrsp, werr) st' Hns Hread Hcode Henc Hwrite) as Hrun.
      destruct werr; exact Hrun.
    + apply bool_decide_eq_false in Hcode. now apply ExistsReadFailed.
  - destruct rsp as [r|]; cbv beta iota; cbn [remote calls].
    2:{ apply ExistsNil; [assumption | assumption | now left]. }
    destruct (ReadResponse.Resource r) as [res|] eqn:Hres.
    2:{ cbn [isMarkedForDeletion]. cbv beta iota.
        apply ExistsNil; [assumption | assumption | right; now exists r]. }
    destruct (isMarkedForDeletion (Some res)) as [[|]|] eqn:Hmark; cbv beta iota.
    + now apply (ExistsMarked _ _ _ _ ap ns w r res).
    + now apply (ExistsLive _ _ _ _ ap ns w r res).
    + now apply isMarkedForDeletion_returns in Hmark.
Qed.

(** X1. Whatever the client does, [EnsureDeleted] makes no call for a
    reserved name; for any other name (the empty one too) its calls are the
    read of the identity built from [ap] and [ns], followed at most by one
    delete, which carries the id of the resource read and the empty
    version.  Every call is made with the context it was given. *)
Theorem EnsureDeleted_calls (ap ns : string) (w : World Ctx St) :
  let r := Read client ctx (readRequest ap ns) (remote w) in
  let new := newCalls w (snd (EnsureDeleted ctx client ap ns w)) in
  if reserved ns then new = []
  else
    new = [ReadCall ctx (readRequest ap ns) r] \/
    exists rsp res d,
      r = (Some rsp, None) /\ ReadResponse.Resource rsp = Some res /\
      new = [ReadCall ctx (readRequest ap ns) r;
             DeleteCall ctx {| DeleteRequest.Id := Resource.Id res;
                               DeleteRequest.Version := "" |} d].
Proof.
  cbv zeta.
  destruct (EnsureDeleted_run ap ns w)
    as [Hns | rsp err Hns Hread Hcode | rsp e Hns Hread Hcode | rsp Hns Hread Hnil
        | r res Hns Hread Hres Hmark | r res dres st' Hns Hread Hres Hmark Hdel];
    rewrite Hns; cbn [snd]; unfold afterRead;
    rewrite ?newCalls_app, ?newCalls_same, ?Hread;
    try reflexivity; try (left; reflexivity).
  right. exists r, res, dres. split; [reflexivity|]. split; [assumption | reflexivity].
Qed.

(** X2. Whatever the client and the encoder do, [EnsureExists] makes no
    call for a reserved name; for any other name its calls are the read of
    the identity built from [ap] and [ns], followed at most by one write,
    and that write carries the new namespace resource with the envelope
    the encoder returned (empty version: no check of a prior version). *)
Theorem EnsureExists_calls (ap ns : string) (w : World Ctx St) :
  let r := Read client ctx (readRequest ap ns) (remote w) in
  let new := newCalls w (snd (EnsureExists isPrintTable anypb_New ctx client ap ns w)) in
  if reserved ns then new = []
  else
    new = [ReadCall ctx (readRequest ap ns) r] \/
    exists nsData wres,
      anypb_New payload = (nsData, None) /\
      Resource.Version (newNamespace ap ns nsData) = "" /\
      new = [ReadCall ctx (readRequest ap ns) r;
             WriteCall ctx
               {| WriteRequest.Resource := Some (newNamespace ap ns nsData) |} wres].
Proof.
  cbv zeta.
  destruct (EnsureExists_run ap ns w)
    as [Hns | rsp Hns Hread Hnil | r res Hns Hread Hres Hmark
        | r res Hns Hread Hres Hmark | rsp e Hns Hread Hcode
        | rsp e nsData encErr Hns Hread Hcode Henc
        | rsp e nsData wres st' Hns Hread Hcode Henc Hwrite];
    rewrite Hns; cbn [snd]; unfold afterRead;
    rewrite ?newCalls_app, ?newCalls_same, ?Hread;
    try reflexivity; try (left; reflexivity).
  right. exists nsData, wres. split; [assumption|]. split; reflexivity.
Qed.



(** X5. [EnsureDeleted] returns an error exactly when a remote call
    failed: the read with a code other than NotFound, or the delete of a
    record found unmarked (with any code, NotFound too).  The error is the
    cause wrapped with the context of the call that failed.  In every other
    case it returns nil or panics. *)
Theorem EnsureDeleted_error_iff (ap ns : string) (w : World Ctx St) (x : error) :
  fst (EnsureDeleted ctx client ap ns w) = Returned (Some x) <->
  reserved ns = false /\
  ((exists rsp e,
      Read client ctx (readRequest ap ns) (remote w) = (rsp, Some e) /\
      status.Code (Some e) <> codes.NotFound /\
      x = fmt.Errorf_w "namespace read failed: " e) \/
   (exists r res drsp e st',
      Read client ctx (readRequest ap ns) (remote w) = (Some r, None) /\
      ReadResponse.Resource r = Some res /\
      isMarkedForDeletion (Some res) = Returned false /\
      Delete client ctx {| DeleteRequest.Id := Resource.Id res;
                           DeleteRequest.Version := "" |} (remote w)
      = ((drsp, Some e), st') /\
      x = fmt.Errorf_w "namespace delete failed: " e)).
Proof.
  split.
  - destruct (EnsureDeleted_run ap ns w)
      as [Hns | rsp err Hns Hread Hcode | rsp e Hns Hread Hcode | rsp Hns Hread Hnil
          | r res Hns Hread Hres Hmark | r res dres st' Hns Hread Hres Hmark Hdel];
      cbn [fst]; try discriminate.
    + intros H. injection H as <-. split; [assumption|]. left. now exists rsp, e.
    + destruct dres as [drsp [e|]]; cbn [snd option_map]; [|discriminate].
      intros H. injection H as <-. split; [assumption|]. right.
      now exists r, res, drsp, e, st'.
  - intros [Hns [[rsp [e [Hread [Hcode ->]]]]
                | [r [res [drsp [e [st' [Hread [Hres [Hmark [Hdel ->]]]]]]]]]]].
    + unfold_run. rewrite Hns, Hread.
      now rewrite bool_decide_eq_false_2 by assumption.
    + unfold_run. rewrite Hns, Hread. cbn [status.Code remote calls].
      rewrite bool_decide_eq_false_2 by discriminate.
      rewrite Hres, Hmark. cbn [remote calls]. now rewrite Hdel.
Qed.

(** X6. An error returned by [EnsureExists] is of one of four kinds: the
    deletion-in-progress error, built after a successful read of a marked
    record and wrapping nothing; the read's error wrapped, when its code is
    not NotFound; the encoder's error as it is; the write's error wrapped.
    No other error is ever returned. *)
Theorem EnsureExists_error_kinds (ap ns : string) (w : World Ctx St)
    (b : bool) (x : error) :
  fst (EnsureExists isPrintTable anypb_New ctx client ap ns w) = Returned (b, Some x) ->
  (exists r res,
     Read client ctx (readRequest ap ns) (remote w) = (Some r, None) /\
     ReadResponse.Resource r = Some res /\
     isMarkedForDeletion (Some res) = Returned true /\
     x = fmt.Errorf_q isPrintTable "consul namespace " ns " deletion in progress" /\
     errors.Unwrap x = None) \/
  (exists rsp e,
     Read client ctx (readRequest ap ns) (remote w) = (rsp, Some e) /\
     status.Code (Some e) <> codes.NotFound /\
     x = fmt.Errorf_w "consul namespace read failed: " e) \/
  (exists nsData,
     status.Code (snd (Read client ctx (readRequest ap ns) (remote w))) = codes.NotFound /\
     anypb_New payload = (nsData, Some x)) \/
  (exists nsData wrsp e st',
     status.Code (snd (Read client ctx (readRequest ap ns) (remote w))) = codes.NotFound /\
     anypb_New payload = (nsData, None) /\
     Write client ctx {| WriteRequest.Resource := Some (newNamespace ap ns nsData) |}
           (remote w) = ((wrsp, Some e), st') /\
     x = fmt.Errorf_w "consul namespace creation failed: " e).
Proof.
  destruct (EnsureExists_run ap ns w)
    as [Hns | rsp Hns Hread Hnil | r res Hns Hread Hres Hmark
        | r res Hns Hread Hres Hmark | rsp e Hns Hread Hcode
        | rsp e nsData encErr Hns Hread Hcode Henc
        | rsp e nsData wres st' Hns Hread Hcode Henc Hwrite];
    cbn [fst]; try discriminate.
  - intros H. injection H as _ <-. left. now exists r, res.
  - intros H. injection H as _ <-. right. left. now exists rsp, e.
  - intros H. injection H as _ <-. right. right. left. exists nsData.
    rewrite Hread. now split.
  - destruct wres as [wrsp [we|]]; cbn [snd afterWrite]; [|discriminate].
    intros H. injection H as _ <-. right. right. right.
    exists nsData, wrsp, we, st'. rewrite Hread. now repeat split.
Qed.

(** X7. Started from the same world, the two operations never both
    change the remote state: when [EnsureExists] issues a write,
    [EnsureDeleted] issues no delete, and the other way round. *)
Theorem never_both_mutate (ap ns : string) (w : World Ctx St) :
  List.filter isWrite
    (newCalls w (snd (EnsureExists isPrintTable anypb_New ctx client ap ns w))) = [] \/
  List.filter isDelete (newCalls w (snd (EnsureDeleted ctx client ap ns w))) = [].
Proof.
  destruct (EnsureExists_run ap ns w)
    as [Hns | rsp Hns Hread Hnil | r res Hns Hread Hres Hmark
        | r res Hns Hread Hres Hmark | rsp e Hns Hread Hcode
        | rsp e nsData encErr Hns Hread Hcode Henc
        | rsp e nsData wres st' Hns Hread Hcode Henc Hwrite];
    cbn [snd]; unfold afterRead; rewrite ?newCalls_app, ?newCalls_same;
    try (left; reflexivity).
  right.
  destruct (EnsureDeleted_run ap ns w)
    as [Hns' | rsp' err' Hns' Hread' Hcode' | rsp' e' Hns' Hread' Hcode'
        | rsp' Hns' Hread' Hnil' | r' res' Hns' Hread' Hres' Hmark'
        | r' res' dres' st'' Hns' Hread' Hres' Hmark' Hdel'];
    cbn [snd]; unfold afterRead; rewrite ?newCalls_app, ?newCalls_same;
    try reflexivity.
  rewrite Hread in Hread'. discriminate Hread'.
Qed.

Lemma written_metadata_unmarked (ap ns : string) (nsData : option Any.t)
    (res : Resource.t) :
  Resource.Metadata res = Resource.Metadata (newNamespace ap ns nsData) ->
  isMarkedForDeletion (Some res) = Returned false.
Proof. intros H. unfold isMarkedForDeletion. now rewrite H. Qed.



(** X9. On a service that reads its writes, a namespace just created by
    [EnsureExists] is then deleted by [EnsureDeleted]: the second operation
    reads the record back with the metadata that was written, finds it
    unmarked, and issues exactly one delete, for the id of the record read
    and with the empty version; it returns nil when that delete succeeds. *)
Theorem created_then_deleted (ap ns : string) (w : World Ctx St) :
  ReadsItsWrites client ->
  fst (EnsureExists isPrintTable anypb_New ctx client ap ns w) = Returned (true, None) ->
  let w1 := snd (EnsureExists isPrintTable anypb_New ctx client ap ns w) in
  let second := EnsureDeleted ctx client ap ns w1 in
  exists res dres,
    Resource.Metadata res = Some {[ "external-source" := "kubernetes" ]} /\
    newCalls w1 (snd second)
    = [ReadCall ctx (readRequest ap ns)
         (Some {| ReadResponse.Resource := Some res |}, None);
       DeleteCall ctx {| DeleteRequest.Id := Resource.Id res;
                         DeleteRequest.Version := "" |} dres] /\
    (snd dres = None -> fst second = Returned None).
Proof.
  intros Hlaw. cbv zeta.
  destruct (EnsureExists_run ap ns w)
    as [Hns | rsp Hns Hread Hnil | r res Hns Hread Hres Hmark
        | r res Hns Hread Hres Hmark | rsp e Hns Hread Hcode
        | rsp e nsData encErr Hns Hread Hcode Henc
        | rsp e nsData wres st' Hns Hread Hcode Henc Hwrite];
    cbn [fst snd]; try discriminate; intros Hfirst.
  destruct wres as [wrsp [we|]]; cbn [snd afterWrite] in Hfirst; [discriminate|].
  destruct (Hlaw ctx (newNamespace ap ns nsData) wrsp (remote w) st' Hwrite)
    as [res' [Hread' Hmd]].
  set (w1 := {| remote := st'; calls := _ |}).
  destruct (Delete client ctx {| DeleteRequest.Id := Resource.Id res';
                                 DeleteRequest.Version := "" |} st')
    as [dres st''] eqn:Hdel.
  exists res', dres. split; [exact Hmd|].
  assert (Hmark : isMarkedForDeletion (Some res') = Returned false)
    by now apply (written_metadata_unmarked ap ns nsData).
  assert (Hread1 : Read client ctx (readRequest ap ns) (remote w1)
                   = (Some {| ReadResponse.Resource := Some res' |}, None))
    by exact Hread'.
  assert (Hdel1 : Delete client ctx {| DeleteRequest.Id := Resource.Id res';
                                       DeleteRequest.Version := "" |} (remote w1)
                  = (dres, st'')) by exact Hdel.
  unfold_run. rewrite Hns, Hread1. cbn [status.Code remote calls].
  rewrite bool_decide_eq_false_2 by discriminate.
  cbn [ReadResponse.Resource]. rewrite Hmark. cbn [remote calls]. rewrite Hdel1.
  destruct dres as [drsp [de|]]; cbn [fst snd]; rewrite <- app_assoc, newCalls_app;
    (split; [reflexivity|]); [discriminate | reflexivity].
Qed.

(** X11. [EnsureExists] reports that it created the namespace exactly
    when the name is not reserved, the read failed with code NotFound, the
    encoder returned an envelope and the write of the new resource returned
    no error. *)
Theorem EnsureExists_created_iff (ap ns : string) (w : World Ctx St) :
  fst (EnsureExists isPrintTable anypb_New ctx client ap ns w) = Returned (true, None) <->
  reserved ns = false /\
  exists rsp e nsData wrsp st',
    Read client ctx (readRequest ap ns) (remote w) = (rsp, Some e) /\
    status.Code (Some e) = codes.NotFound /\
    anypb_New payload = (nsData, None) /\
    Write client ctx {| WriteRequest.Resource := Some (newNamespace ap ns nsData) |}
          (remote w) = ((wrsp, None), st').
Proof.
  split.
  - destruct (EnsureExists_run ap ns w)
      as [Hns | rsp Hns Hread Hnil | r res Hns Hread Hres Hmark
          | r res Hns Hread Hres Hmark | rsp e Hns Hread Hcode
          | rsp e nsData encErr Hns Hread Hcode Henc
          | rsp e nsData wres st' Hns Hread Hcode Henc Hwrite];
      cbn [fst]; try discriminate.
    destruct wres as [wrsp [we|]]; cbn [snd afterWrite]; [discriminate|].
    intros _. split; [assumption|]. now exists rsp, e, nsData, wrsp, st'.
  - intros [Hns [rsp [e [nsData [wrsp [st' [Hread [Hcode [Henc Hwrite]]]]]]]]].
    unfold_run. rewrite Hns, Hread, Hcode, Henc.
    rewrite bool_decide_eq_true_2 by reflexivity.
    cbn [negb remote calls]. now rewrite Hwrite.
Qed.


End RunFacts.

(** X10. The answer of [isMarkedForDeletion] depends on the key
    [deletionTimestamp] alone: setting or removing any other metadata key
    does not change it, and once that key is removed the record is not
    marked. *)
Theorem isMarkedForDeletion_other_keys (res res' : Resource.t)
    (metadata : gmap string string) (k v : string) :
  Resource.Metadata res = Some metadata ->
  (k <> "deletionTimestamp" ->
   Resource.Metadata res' = Some (<[k := v]> metadata) \/
   Resource.Metadata res' = Some (delete k metadata) ->
   isMarkedForDeletion (Some res') = isMarkedForDeletion (Some res)) /\
  (Resource.Metadata res' = Some (delete "deletionTimestamp" metadata) ->
   isMarkedForDeletion (Some res') = Returned false).
Proof.
  intros Hmd. unfold isMarkedForDeletion, DeletionTimestampKey. split.
  - intros Hk [H | H]; rewrite H, Hmd.
    + now rewrite lookup_insert_ne.
    + now rewrite lookup_delete_ne.
  - intros H. now rewrite H, lookup_delete_eq.
Qed.

(** ** Concrete runs of the path facts *)

Lemma EnsureDeleted_calls_witness :
  newCalls (Sample.holding Sample.live None)
    (snd (EnsureDeleted tt Sample.client "ap1" "" (Sample.holding Sample.live None)))
  = [ReadCall tt (readRequest "ap1" "") (None, Some Sample.notFound)] \/
  exists rsp res d,
    Read Sample.client tt (readRequest "ap1" "")
         (remote (Sample.holding Sample.live None)) = (Some rsp, None) /\
    ReadResponse.Resource rsp = Some res /\
    newCalls (Sample.holding Sample.live None)
      (snd (EnsureDeleted tt Sample.client "ap1" "" (Sample.holding Sample.live None)))
    = [ReadCall tt (readRequest "ap1" "")
         (Read Sample.client tt (readRequest "ap1" "")
               (remote (Sample.holding Sample.live None)));
       DeleteCall tt {| DeleteRequest.Id := Resource.Id res;
                        DeleteRequest.Version := "" |} d].
Proof.
  exact (EnsureDeleted_calls tt Sample.client "ap1" "" (Sample.holding Sample.live None)).
Defined.

Lemma EnsureExists_calls_witness :
  let w := Sample.holding Sample.live None in
  let r := Read Sample.client tt (readRequest "ap1" "ns2") (remote w) in
  let new := newCalls w (snd (EnsureExists Sample.isPrintTable Sample.encode tt
                                Sample.client "ap1" "ns2" w)) in
  new = [ReadCall tt (readRequest "ap1" "ns2") r] \/
  exists nsData wres,
    Sample.encode payload = (nsData, None) /\
    Resource.Version (newNamespace "ap1" "ns2" nsData) = "" /\
    new = [ReadCall tt (readRequest "ap1" "ns2") r;
           WriteCall tt
             {| WriteRequest.Resource := Some (newNamespace "ap1" "ns2" nsData) |} wres].
Proof.
  exact (EnsureExists_calls Sample.isPrintTable Sample.encode tt Sample.client
           "ap1" "ns2" (Sample.holding Sample.live None)).
Defined.



Lemma EnsureDeleted_error_iff_witness :
  fst (EnsureDeleted tt Sample.client "ap1" "ns1"
         (Sample.holding Sample.live (Some Sample.notFound)))
  = Returned (Some (fmt.Errorf_w "namespace delete failed: " Sample.notFound)).
Proof.
  apply (EnsureDeleted_error_iff tt Sample.client "ap1" "ns1"
           (Sample.holding Sample.live (Some Sample.notFound))).
  split; [reflexivity|]. right.
  exists {| ReadResponse.Resource := Some Sample.live |}, Sample.live, None,
    Sample.notFound, (remote (Sample.holding Sample.live (Some Sample.notFound))).
  repeat split.
Defined.

Lemma EnsureExists_error_kinds_witness :
  exists nsData,
    status.Code (snd (Read Sample.client tt (readRequest "ap1" "ns1")
                           (remote Sample.empty))) = codes.NotFound /\
    Sample.noEncode payload = (nsData, Some Sample.encodeError).
Proof.
  destruct (EnsureExists_error_kinds Sample.isPrintTable Sample.noEncode tt
              Sample.client "ap1" "ns1" Sample.empty false Sample.encodeError eq_refl)
    as [[r [res [H _]]] | [[rsp [e [_ [_ H]]]] | [H | [nsData [wrsp [e [st' [_ [_ [_ H]]]]]]]]]].
  - vm_compute in H. discriminate H.
  - unfold fmt.Errorf_w in H. discriminate H.
  - exact H.
  - unfold fmt.Errorf_w in H. discriminate H.
Defined.

Lemma never_both_mutate_witness :
  List.filter isWrite
    (newCalls (Sample.holding Sample.live None)
       (snd (EnsureExists Sample.isPrintTable Sample.encode tt Sample.client
               "ap1" "ns1" (Sample.holding Sample.live None)))) = [] \/
  List.filter isDelete
    (newCalls (Sample.holding Sample.live None)
       (snd (EnsureDeleted tt Sample.client "ap1" "ns1"
               (Sample.holding Sample.live None)))) = [].
Proof.
  exact (never_both_mutate Sample.isPrintTable Sample.encode tt Sample.client
           "ap1" "ns1" (Sample.holding Sample.live None)).
Defined.


Lemma created_then_deleted_witness :
  exists res dres,
    Resource.Metadata res = Some {[ "external-source" := "kubernetes" ]} /\
    newCalls Sample.created (snd (EnsureDeleted tt Sample.client "ap1" "ns1" Sample.created))
    = [ReadCall tt (readRequest "ap1" "ns1")
         (Some {| ReadResponse.Resource := Some res |}, None);
       DeleteCall tt {| DeleteRequest.Id := Resource.Id res;
                        DeleteRequest.Version := "" |} dres] /\
    (snd dres = None ->
     fst (EnsureDeleted tt Sample.client "ap1" "ns1" Sample.created) = Returned None).
Proof.
  exact (created_then_deleted Sample.isPrintTable Sample.encode tt Sample.client
           "ap1" "ns1" Sample.empty Sample_reads_its_writes eq_refl).
Defined.

Lemma EnsureExists_created_iff_witness :
  fst (EnsureExists Sample.isPrintTable Sample.encode tt Sample.client "ap1" "ns1"
         Sample.empty) = Returned (true, None).
Proof.
  apply (EnsureExists_created_iff Sample.isPrintTable Sample.encode tt Sample.client
           "ap1" "ns1" Sample.empty).
  split; [reflexivity|].
  exists None, Sample.notFound, (fst (Sample.encode payload)),
    (Some {| WriteResponse.Resource :=
               Some (newNamespace "ap1" "ns1" (fst (Sample.encode payload))) |}),
    (remote Sample.created).
  repeat split.
Defined.


Lemma isMarkedForDeletion_other_keys_witness :
  isMarkedForDeletion (Some Sample.owned) = isMarkedForDeletion (Some Sample.live).
Proof.
  apply (proj1 (isMarkedForDeletion_other_keys Sample.live Sample.owned
                  {[ "external-source" := "kubernetes" ]} "owner" "team-a" eq_refl)).
  - intros H. discriminate H.
  - left. reflexivity.
Defined.
